(** * Portalis npm distribution shim

    A shallow embedding of the three executable pieces of the npm package:

    - [scripts/install.js], the postinstall hook that selects the release
      asset for the host platform, downloads it (following redirects) and
      marks it executable;
    - [index.js], the Node.js entry point that spawns the installed binary;
    - [bin/portalis.cmd], the Windows wrapper script.

    The scripts act on a filesystem, a console, the network and the process
    table.  These are threaded through a small state monad whose outcomes
    distinguish normal completion, a thrown exception (a rejected promise),
    a call to [process.exit] and an exhausted redirect budget. *)

From Stdlib Require Import ZArith String Ascii List Strings.Byte.
From stdpp Require Import base option strings gmap pretty.

Local Open Scope Z_scope.
Local Open Scope string_scope.

(** ** The host: values, filesystem, console, processes *)

Module Host.

(** The line feed written [\n] in the JavaScript string literals. *)
Definition LF : string := String (ascii_of_nat 10) EmptyString.

(** A JavaScript [Error]; only its [message] is ever read. *)
Record error := Error { message : string }.

(** A file: its bytes and its permission bits. *)
Record file := File { content : list byte; mode : Z }.

Inductive stream := stdout | stderr.

(** [https.get] either throws synchronously (an argument that is not a
    valid absolute URL), emits ['error'] on the request, or calls back
    with a response. *)
Record response := Response {
  statusCode : Z;
  location : option string;      (* [response.headers.location] *)
  body : list byte
}.

Inductive get_outcome :=
| InvalidRequest (e : error)
| TransportError (e : error)
| Responded (r : response).

(** [child_process.spawn]. *)
Inductive stdio := StdioPipe | StdioInherit | StdioIgnore.

Record spawn_request := Spawn {
  spawn_file : string;
  spawn_args : list string;
  spawn_stdio : stdio;
  spawn_windowsHide : bool
}.

(** What a spawned child eventually emits: ['error'] when it could not be
    started, otherwise ['exit'] after a normal exit or after a signal. *)
Inductive child_event :=
| SpawnFailed (e : error)
| ChildExited (code : Z)
| ChildKilled (signal : string).

(** The arguments [(code, signal)] Node passes to an ['exit'] listener:
    exactly one of them is non-null. *)
Definition exit_code (ev : child_event) : option Z :=
  match ev with
  | ChildExited c => Some c
  | _ => None
  end.

Definition exit_signal (ev : child_event) : option string :=
  match ev with
  | ChildKilled s => Some s
  | _ => None
  end.

(** Everything a script reads from its environment. *)
Record runtime := Runtime {
  process_platform : string;
  process_arch : string;
  PACKAGE_VERSION : string;          (* [require('../package.json').version] *)
  package_root : string;             (* the directory holding [index.js] *)
  umask : Z;
  https_net : option string -> get_outcome;
  os_child : spawn_request -> child_event;
  cmd_errorlevel : child_event -> Z  (* ERRORLEVEL cmd.exe derives from a command *)
}.

(** Everything a script can change. *)
Record world := World {
  files : gmap string file;
  dirs : gset string;
  console : list (stream * string);
  requests : list (option string);   (* GET requests put on the wire, oldest first *)
  spawned : list spawn_request
}.

Definition set_files (f : gmap string file -> gmap string file) (w : world) : world :=
  World (f (files w)) (dirs w) (console w) (requests w) (spawned w).

Definition set_dirs (f : gset string -> gset string) (w : world) : world :=
  World (files w) (f (dirs w)) (console w) (requests w) (spawned w).

Definition print (s : stream) (line : string) (w : world) : world :=
  World (files w) (dirs w) (console w ++ [(s, line)]) (requests w) (spawned w).

Definition record_request (u : option string) (w : world) : world :=
  World (files w) (dirs w) (console w) (requests w ++ [u]) (spawned w).

Definition record_spawn (r : spawn_request) (w : world) : world :=
  World (files w) (dirs w) (console w) (requests w) (spawned w ++ [r]).

(** *** The script monad *)

Inductive outcome (A : Type) : Type :=
| Returned (a : A)        (* ran to completion; a promise fulfilled *)
| Thrown (e : error)      (* an exception; a promise rejected *)
| Exited (status : Z)     (* [process.exit] was called *)
| Pending.                (* still following redirects when the budget ran out *)

Arguments Returned {A} a.
Arguments Thrown {A} e.
Arguments Exited {A} status.
Arguments Pending {A}.

Definition M (A : Type) : Type := world -> outcome A * world.

Definition ret {A} (a : A) : M A := fun w => (Returned a, w).

Definition bind {A B} (m : M A) (k : A -> M B) : M B :=
  fun w =>
    match m w with
    | (Returned a, w') => k a w'
    | (Thrown e, w') => (Thrown e, w')
    | (Exited c, w') => (Exited c, w')
    | (Pending, w') => (Pending, w')
    end.

Definition throw {A} (e : error) : M A := fun w => (Thrown e, w).

Definition pending {A} : M A := fun w => (Pending, w).

(** [try { body } catch (e) { handler e }]; also [promise.catch(handler)]. *)
Definition try_catch {A} (body : M A) (handler : error -> M A) : M A :=
  fun w =>
    match body w with
    | (Thrown e, w') => handler e w'
    | r => r
    end.

(** [process.exit(code)]: a null or undefined code leaves [process.exitCode]
    unset, and the process ends with status 0. *)
Definition process_exit {A} (code : option Z) : M A :=
  fun w => (Exited (default 0 code), w).

Definition console_log (line : string) : M unit :=
  fun w => (Returned tt, print stdout line w).

Definition console_error (line : string) : M unit :=
  fun w => (Returned tt, print stderr line w).

Declare Scope script_scope.
Delimit Scope script_scope with script.
Bind Scope script_scope with M.

Module Import Notations.
Notation "'do' x <- m ; k" := (bind m (fun x => k))
  (at level 10, x name, m at level 100, k at level 200) : script_scope.
Notation "m ;; k" := (bind m (fun _ => k))
  (at level 100, k at level 200, right associativity) : script_scope.
End Notations.

Local Open Scope script_scope.

(** [array.forEach(f)]. *)
Fixpoint forEach {A} (l : list A) (f : A -> M unit) : M unit :=
  match l with
  | [] => ret tt
  | x :: l' => f x ;; forEach l' f
  end.

(** *** Filesystem *)

Definition existsSync (p : string) : M bool :=
  fun w => (Returned (bool_decide (is_Some (files w !! p)) || bool_decide (p ∈ dirs w)), w).

(** [fs.mkdirSync(p, { recursive: true })]. *)
Definition mkdirSync (p : string) : M unit :=
  fun w => (Returned tt, set_dirs (fun d => {[ p ]} ∪ d) w).

(** Permission bits of a newly created file: 0o666 less the umask. *)
Definition creation_mode (rt : runtime) : Z := Z.land 438 (Z.lnot (umask rt)).

(** [fs.createWriteStream(dest)] opens with flag ['w']: the file is created
    if missing and truncated otherwise; an existing file keeps its mode. *)
Definition createWriteStream (rt : runtime) (dest : string) : M unit :=
  fun w =>
    let m := match files w !! dest with
             | Some f => mode f
             | None => creation_mode rt
             end in
    (Returned tt, set_files (insert dest (File [] m)) w).

(** [response.pipe(file)] up to ['finish']: the body lands in the stream
    opened last on [dest]. *)
Definition pipe (rt : runtime) (bytes : list byte) (dest : string) : M unit :=
  fun w =>
    let m := match files w !! dest with
             | Some f => mode f
             | None => creation_mode rt
             end in
    (Returned tt, set_files (insert dest (File bytes m)) w).

(** [fs.unlink(dest, () => {})]: errors are ignored. *)
Definition unlink (dest : string) : M unit :=
  fun w => (Returned tt, set_files (delete dest) w).

(** [fs.chmodSync(p, m)] throws when [p] does not exist. *)
Definition chmodSync (p : string) (m : Z) : M unit :=
  fun w =>
    match files w !! p with
    | Some f => (Returned tt, set_files (insert p (File (content f) m)) w)
    | None => (Thrown (Error ("ENOENT: no such file or directory, chmod '" +:+ p +:+ "'")), w)
    end.

(** [path.join]: the separator is a backslash on Windows. *)
Definition path_sep (rt : runtime) : string :=
  if String.eqb (process_platform rt) "win32"
  then String (ascii_of_nat 92) EmptyString
  else "/".

Definition path_join (rt : runtime) (parts : list string) : string :=
  String.concat (path_sep rt) parts.

(** *** Network and processes *)

(** [https.get(url, callback).on('error', ...)]: the value handed to
    whichever of the two listeners fires.  A synchronous exception puts
    nothing on the wire. *)
Definition https_get (rt : runtime) (url : option string) : M get_outcome :=
  fun w =>
    match https_net rt url with
    | InvalidRequest e => (Thrown e, w)
    | out => (Returned out, record_request url w)
    end.

(** [spawn(file, args, options)]: a missing executable makes the child
    emit ['error'] (ENOENT); otherwise the operating system decides. *)
Definition spawn (rt : runtime) (req : spawn_request) : M child_event :=
  fun w =>
    (Returned (match files w !! spawn_file req with
               | Some _ => os_child rt req
               | None => SpawnFailed (Error ("spawn " +:+ spawn_file req +:+ " ENOENT"))
               end),
     record_spawn req w).

(** How the process ends once a top-level script has run: an uncaught
    exception ends Node with status 1, a script that simply finishes ends
    with status 0. *)
Definition exit_status {A} (o : outcome A) : option Z :=
  match o with
  | Returned _ => Some 0
  | Thrown _ => Some 1
  | Exited c => Some c
  | Pending => None
  end.

End Host.

(** ** [scripts/install.js] *)

Module Install.
Import Host Host.Notations.
Local Open Scope script_scope.

Definition REPO : string := "portalis/portalis".
Definition BINARY_NAME : string := "portalis".

(** The object literal [PLATFORM_MAP]; [Object.keys] lists its properties
    in this order. *)
Definition PLATFORM_MAP : list (string * string) :=
  [ ("darwin-x64", "macos-x86_64");
    ("darwin-arm64", "macos-aarch64");
    ("linux-x64", "linux-x86_64");
    ("linux-arm64", "linux-aarch64");
    ("win32-x64", "windows-x86_64") ].

(** [obj[key]] on an object literal; [None] is [undefined]. *)
Fixpoint get_property (obj : list (string * string)) (key : string) : option string :=
  match obj with
  | [] => None
  | (k, v) :: obj' => if String.eqb k key then Some v else get_property obj' key
  end.

Definition Object_keys (obj : list (string * string)) : list string := map fst obj.

(** [!v] for a value that is a string or [undefined]. *)
Definition falsy (v : option string) : bool :=
  match v with
  | None => true
  | Some s => String.eqb s ""
  end.

(** A template literal [${v}] of a string that may be [undefined]. *)
Definition template (v : option string) : string := default "undefined" v.

Section WithRuntime.
Variable rt : runtime.

Definition getPlatform : M string :=
  let type := process_platform rt in
  let arch := process_arch rt in
  let key := type +:+ "-" +:+ arch in
  let platform := get_property PLATFORM_MAP key in
  if falsy platform then
    console_error ("⚠️  Unsupported platform: " +:+ type +:+ "-" +:+ arch) ;;
    console_error "Supported platforms:" ;;
    forEach (Object_keys PLATFORM_MAP) (fun k => console_error ("  - " +:+ k)) ;;
    console_error (LF +:+ "You can build from source:") ;;
    console_error "  git clone https://github.com/portalis/portalis.git" ;;
    console_error "  cd portalis" ;;
    console_error "  cargo build --release --bin portalis" ;;
    process_exit (Some 1)
  else
    ret (default "" platform).

Definition getBinaryExtension : string :=
  if String.eqb (process_platform rt) "win32" then ".exe" else "".

(** The promise returned by [downloadBinary(url, dest)], run until it
    settles.  Every redirect is a recursive call; [fuel] bounds how many
    GETs are issued before the promise is reported as still pending. *)
Fixpoint downloadBinary (fuel : nat) (url : option string) (dest : string) : M unit :=
  match fuel with
  | O => pending
  | S fuel' =>
    console_log ("📥 Downloading from " +:+ template url +:+ "...") ;;
    createWriteStream rt dest ;;
    do got <- https_get rt url ;
    match got with
    | Responded response =>
      if Z.eqb (statusCode response) 302 || Z.eqb (statusCode response) 301 then
        downloadBinary fuel' (location response) dest
      else if negb (Z.eqb (statusCode response) 200) then
        throw (Error ("Failed to download: HTTP " +:+ pretty (statusCode response)))
      else
        pipe rt (body response) dest ;;
        ret tt
    | TransportError err =>
      unlink dest ;;
      throw err
    | InvalidRequest err => throw err
    end
  end.

Definition binDir : string := path_join rt [package_root rt; "bin"].
Definition binaryName : string := BINARY_NAME +:+ getBinaryExtension.
Definition binaryPath : string := path_join rt [binDir; binaryName].

Definition downloadUrl (platform : string) : string :=
  "https://github.com/" +:+ REPO +:+ "/releases/download/v" +:+ PACKAGE_VERSION rt
    +:+ "/" +:+ BINARY_NAME +:+ "-" +:+ platform +:+ getBinaryExtension.

(** The [try] block of [install]. *)
Definition fetch (fuel : nat) (platform : string) : M unit :=
  downloadBinary fuel (Some (downloadUrl platform)) binaryPath ;;
  (if negb (String.eqb (process_platform rt) "win32")
   then chmodSync binaryPath 493          (* 0o755 *)
   else ret tt) ;;
  console_log ("✅ Successfully installed Portalis " +:+ PACKAGE_VERSION rt) ;;
  console_log ("📍 Binary location: " +:+ binaryPath +:+ LF) ;;
  console_log "Get started with:" ;;
  console_log "  portalis --help" ;;
  console_log "  portalis convert your_script.py".

(** The [catch] block of [install]. *)
Definition fallback (error : error) : M unit :=
  console_error (LF +:+ "❌ Failed to download binary: " +:+ message error +:+ LF) ;;
  console_error "Fallback options:" ;;
  console_error "1. Install via cargo (requires Rust):" ;;
  console_error ("   cargo install portalis" +:+ LF) ;;
  console_error "2. Build from source:" ;;
  console_error "   git clone https://github.com/portalis/portalis.git" ;;
  console_error "   cd portalis" ;;
  console_error ("   cargo build --release --bin portalis" +:+ LF) ;;
  console_error "3. Report this issue:" ;;
  console_error ("   https://github.com/" +:+ REPO +:+ "/issues" +:+ LF) ;;
  process_exit (Some 0).

Definition install (fuel : nat) : M unit :=
  console_log ("🚀 Installing Portalis..." +:+ LF) ;;
  do platform <- getPlatform ;
  (do present <- existsSync binDir ;
   if negb present then mkdirSync binDir else ret tt) ;;
  try_catch (fetch fuel platform) fallback.

(** The script body: [install().catch(...)].  [console.error] is given the
    error object itself; its message stands for the rendering. *)
Definition main (fuel : nat) : M unit :=
  try_catch (install fuel)
    (fun err =>
       console_error ("Installation error: " +:+ message err) ;;
       process_exit (Some 0)).

End WithRuntime.

End Install.

(** ** [index.js] *)

Module Launcher.
Import Host Host.Notations.
Local Open Scope script_scope.

(** [array.slice(n)]. *)
Definition slice {A} (n : nat) (l : list A) : list A := skipn n l.

(** Node delivers the event of a child to the listeners registered on it.
    The script registers an ['exit'] listener and nothing else, so an
    ['error'] event finds no listener and is rethrown as an uncaught
    exception. *)
Definition on_exit (child : child_event) (listener : option Z -> M unit) : M unit :=
  match child with
  | SpawnFailed e => throw e
  | ev => listener (exit_code ev)
  end.

Section WithRuntime.
Variable rt : runtime.

Definition binPath : string :=
  path_join rt [package_root rt; "bin";
                if String.eqb (process_platform rt) "win32"
                then "portalis.exe" else "portalis"].

(** [argv] is [process.argv]: the node executable, the script, then the
    arguments the user typed. *)
Definition main (argv : list string) : M unit :=
  do child <- spawn rt (Spawn binPath (slice 2 argv) StdioInherit true) ;
  on_exit child (fun code => process_exit code).

End WithRuntime.

End Launcher.

(** ** [bin/portalis.cmd] *)

Module Wrapper.
Import Host Host.Notations.
Local Open Scope script_scope.

(** [echo] writes to standard output. *)
Definition echo (line : string) : M unit := console_log line.

(** [if exist]. *)
Definition exist (p : string) : M bool := existsSync p.

(** [exit /b n]. *)
Definition exit_b {A} (n : Z) : M A := fun w => (Exited n, w).

Section WithRuntime.
Variable rt : runtime.

(** [dp0] is [%~dp0], the directory of the script with its trailing
    backslash; [args] is [%*].  The command line runs in the console
    of the script, and the script ends with its ERRORLEVEL. *)
Definition main (dp0 : string) (args : list string) : M unit :=
  let bindir := dp0 in
  let exe := bindir +:+ "portalis.exe" in
  (do found <- exist exe ;
   if negb found then
     echo ("Error: Portalis binary not found at " +:+ exe) ;;
     echo "Try reinstalling: npm install -g portalis" ;;
     exit_b 1
   else ret tt) ;;
  do child <- spawn rt (Spawn exe args StdioInherit false) ;
  exit_b (cmd_errorlevel rt child).

End WithRuntime.

End Wrapper.

(** ** Vocabulary of the specification *)

Module Spec.
Import Host.

(** A response that [downloadBinary] follows: HTTP 301 or 302. *)
Definition redirection (r : response) : Prop :=
  statusCode r = 301 \/ statusCode r = 302.

(** An outcome of a GET at which [downloadBinary] stops. *)
Definition terminal (out : get_outcome) : Prop :=
  forall r, out = Responded r -> ~ redirection r.

(** [redirect_chain rt url trail out]: starting at [url], every response
    but the last is a redirection carrying a [Location] header, [trail]
    lists the targets visited in order ([url] first) and [out] is what the
    last of them answers. *)
Inductive redirect_chain (rt : runtime) : string -> list string -> get_outcome -> Prop :=
| chain_end url out :
    https_net rt (Some url) = out ->
    terminal out ->
    redirect_chain rt url [url] out
| chain_hop url r next trail out :
    https_net rt (Some url) = Responded r ->
    redirection r ->
    location r = Some next ->
    redirect_chain rt next trail out ->
    redirect_chain rt url (url :: trail) out.

(** The mode a write stream opened on [dest] leaves on the file. *)
Definition open_mode (rt : runtime) (dest : string) (w : world) : Z :=
  match files w !! dest with
  | Some f => mode f
  | None => creation_mode rt
  end.

(** The progress line [downloadBinary] logs for a target. *)
Definition progress (url : string) : stream * string :=
  (stdout, "📥 Downloading from " +:+ url +:+ "...").

(** How the promise of [downloadBinary] settles on a terminal outcome. *)
Definition settled (out : get_outcome) : outcome unit :=
  match out with
  | Responded r =>
      if Z.eqb (statusCode r) 200 then Returned tt
      else Thrown (Error ("Failed to download: HTTP " +:+ pretty (statusCode r)))
  | TransportError e => Thrown e
  | InvalidRequest e => Thrown e
  end.

(** What is at [dest] once the promise has settled. *)
Definition settled_file (m : Z) (out : get_outcome) : option file :=
  match out with
  | Responded r => Some (File (if Z.eqb (statusCode r) 200 then body r else []) m)
  | TransportError _ => None
  | InvalidRequest _ => Some (File [] m)
  end.

(** The files once a write stream on [dest] has come to rest with [f]. *)
Definition rest (dest : string) (f : option file) (fs : gmap string file) :
    gmap string file :=
  match f with
  | Some f => <[dest := f]> fs
  | None => delete dest fs
  end.

(** The requests that reached the wire. *)
Definition on_wire (trail : list string) (out : get_outcome) : list (option string) :=
  match out with
  | InvalidRequest _ => Some <$> removelast trail
  | _ => Some <$> trail
  end.

(** The ten lines of remediation guidance printed by the [catch] block. *)
Definition remediation (e : error) : list (stream * string) :=
  [ (stderr, LF +:+ "❌ Failed to download binary: " +:+ message e +:+ LF);
    (stderr, "Fallback options:");
    (stderr, "1. Install via cargo (requires Rust):");
    (stderr, "   cargo install portalis" +:+ LF);
    (stderr, "2. Build from source:");
    (stderr, "   git clone https://github.com/portalis/portalis.git");
    (stderr, "   cd portalis");
    (stderr, "   cargo build --release --bin portalis" +:+ LF);
    (stderr, "3. Report this issue:");
    (stderr, "   https://github.com/portalis/portalis/issues" +:+ LF) ].

(** The notice printed for a platform key without a release asset. *)
Definition unsupported_notice (type arch : string) : list (stream * string) :=
  [ (stderr, "⚠️  Unsupported platform: " +:+ type +:+ "-" +:+ arch);
    (stderr, "Supported platforms:");
    (stderr, "  - darwin-x64");
    (stderr, "  - darwin-arm64");
    (stderr, "  - linux-x64");
    (stderr, "  - linux-arm64");
    (stderr, "  - win32-x64");
    (stderr, LF +:+ "You can build from source:");
    (stderr, "  git clone https://github.com/portalis/portalis.git");
    (stderr, "  cd portalis");
    (stderr, "  cargo build --release --bin portalis") ].

(** Permission bits: [0o755], the three execute bits [0o111] and the
    position of the owner-execute bit [0o100]. *)
Definition rwxr_xr_x : Z := 7 * 64 + 5 * 8 + 5.
Definition execute_bits : Z := 1 * 64 + 1 * 8 + 1.
Definition owner_execute_bit : Z := 6.

(** The platform key [getPlatform] looks up, and what it means for the
    host to be supported with release-asset suffix [suffix]. *)
Definition platform_key (rt : runtime) : string :=
  process_platform rt +:+ "-" +:+ process_arch rt.

Definition supported (rt : runtime) (suffix : string) : Prop :=
  Install.get_property Install.PLATFORM_MAP (platform_key rt) = Some suffix.

Definition unsupported (rt : runtime) : Prop :=
  Install.get_property Install.PLATFORM_MAP (platform_key rt) = None.

(** The five rows of the platform table, as (OS, CPU, asset suffix). *)
Definition platform_table : list (string * string * string) :=
  [ ("darwin", "x64", "macos-x86_64");
    ("darwin", "arm64", "macos-aarch64");
    ("linux", "x64", "linux-x86_64");
    ("linux", "arm64", "linux-aarch64");
    ("win32", "x64", "windows-x86_64") ].


(** The first line [install] logs. *)
Definition banner : stream * string :=
  (stdout, "🚀 Installing Portalis..." +:+ LF).

(** The lines logged after a successful installation. *)
Definition success_report (rt : runtime) : list (stream * string) :=
  [ (stdout, "✅ Successfully installed Portalis " +:+ PACKAGE_VERSION rt);
    (stdout, "📍 Binary location: " +:+ Install.binaryPath rt +:+ LF);
    (stdout, "Get started with:");
    (stdout, "  portalis --help");
    (stdout, "  portalis convert your_script.py") ].

(** Append lines to the console. *)
Definition prints (lines : list (stream * string)) (w : world) : world :=
  World (files w) (dirs w) (console w ++ lines) (requests w) (spawned w).

(** The world in which [install] starts the download: the banner is out
    and the [bin] directory exists. *)
Definition prepared (rt : runtime) (w : world) : world :=
  let w0 := print stdout (snd banner) w in
  if bool_decide (is_Some (files w0 !! Install.binDir rt))
     || bool_decide (Install.binDir rt ∈ dirs w0)
  then w0
  else set_dirs (fun d => {[ Install.binDir rt ]} ∪ d) w0.

(** The request [index.js] hands to [spawn] for the arguments [args]. *)
Definition launch_request (rt : runtime) (args : list string) : spawn_request :=
  Spawn (Launcher.binPath rt) args StdioInherit true.


End Spec.

(** ** Concrete hosts used to exercise the statements *)

Module Scenario.
Import Host.

Definition asset : list byte := [x7f; x45; x4c; x46]%byte.

Definition linux_asset_url : string :=
  "https://github.com/portalis/portalis/releases/download/v0.1.0/portalis-linux-x86_64".

Definition arm_asset_url : string :=
  "https://github.com/portalis/portalis/releases/download/v0.1.0/portalis-linux-aarch64".

Definition windows_asset_url : string :=
  "https://github.com/portalis/portalis/releases/download/v0.1.0/portalis-windows-x86_64.exe".

Definition macos_asset_url : string :=
  "https://github.com/portalis/portalis/releases/download/v0.1.0/portalis-macos-aarch64".

(** A release host that redirects the x86_64 Linux asset twice before
    serving it, serves the Windows one directly, drops the connection on
    the macOS one and has nothing else. *)
Definition github (url : option string) : get_outcome :=
  match url with
  | None => InvalidRequest (Error "Invalid URL")
  | Some u =>
      if String.eqb u linux_asset_url then
        Responded (Response 302 (Some "https://objects.example/a") [])
      else if String.eqb u "https://objects.example/a" then
        Responded (Response 301 (Some "https://objects.example/b") [])
      else if String.eqb u "https://objects.example/b" then
        Responded (Response 200 None asset)
      else if String.eqb u windows_asset_url then
        Responded (Response 200 None asset)
      else if String.eqb u macos_asset_url then
        TransportError (Error "read ECONNRESET")
      else
        Responded (Response 404 None [])
  end.

(** The child exits with 42 on [convert] and is killed otherwise. *)
Definition child (req : spawn_request) : child_event :=
  match spawn_args req with
  | command :: _ =>
      if String.eqb command "convert" then ChildExited 42 else ChildKilled "SIGKILL"
  | [] => ChildKilled "SIGKILL"
  end.

Definition errorlevel (ev : child_event) : Z :=
  match ev with
  | ChildExited c => c
  | _ => 1
  end.

Definition host (platform arch : string) : runtime :=
  Runtime platform arch "0.1.0" "/pkg" 18 github child errorlevel.

Definition linux_x64 : runtime := host "linux" "x64".
Definition linux_arm64 : runtime := host "linux" "arm64".
Definition freebsd_x64 : runtime := host "freebsd" "x64".

(** A freshly unpacked package: nothing on disk, nothing printed. *)
Definition fresh : world := World ∅ ∅ [] [] [].

(** A package whose binary is in place. *)
Definition installed : world :=
  World {[ "/pkg/bin/portalis" := File asset 493 ]} {[ "/pkg/bin" ]} [] [] [].

End Scenario.

(** ** Hosts with a misbehaving release server or operating system *)

Module Edge.
Import Host.

Definition looping_url : string := Scenario.linux_asset_url.
Definition headless_url : string := Scenario.arm_asset_url.
Definition relative_url : string := Scenario.macos_asset_url.

(** A release host whose x86_64 Linux asset redirects to itself, whose
    aarch64 Linux asset redirects without a [Location] header, and whose
    macOS asset redirects to a relative path, which [https.get] refuses.
    A GET without a target finds nobody listening. *)
Definition server (url : option string) : get_outcome :=
  match url with
  | None => TransportError (Error "connect ECONNREFUSED 127.0.0.1:443")
  | Some u =>
      if String.eqb u looping_url then
        Responded (Response 302 (Some looping_url) [])
      else if String.eqb u headless_url then
        Responded (Response 301 None [])
      else if String.eqb u relative_url then
        Responded (Response 302 (Some "/objects/a") [])
      else if String.eqb u "/objects/a" then
        InvalidRequest (Error "Invalid URL")
      else
        Responded (Response 404 None [])
  end.

(** An operating system that refuses to execute anything. *)
Definition noexec (req : spawn_request) : child_event :=
  SpawnFailed (Error ("spawn " +:+ spawn_file req +:+ " EACCES")).

Definition host (platform arch : string) : runtime :=
  Runtime platform arch "0.1.0" "/pkg" 18 server noexec Scenario.errorlevel.

(** A package left behind by a download that ended in 404: an empty,
    non-executable file where the binary should be. *)
Definition half_installed : world :=
  World {[ "/pkg/bin/portalis" := File [] 420 ]} {[ "/pkg/bin" ]} [] [] [].



End Edge.

(** ** Properties of the installer *)

Import Host Spec.
Local Open Scope script_scope.

(** Expose the fields of a world built by the update functions. *)
Ltac world_simpl :=
  unfold set_files, set_dirs, print, record_request, record_spawn;
  cbn [files dirs console requests spawned].

(** Console output accumulates: nested [print]s fold into one [prints]. *)
Lemma print_as_prints s line w : print s line w = prints [(s, line)] w.
Proof. reflexivity. Qed.

Lemma prints_prints l1 l2 w : prints l2 (prints l1 w) = prints (l1 ++ l2) w.
Proof. unfold prints. cbn. by rewrite app_assoc. Qed.

Lemma files_prints lines w : files (prints lines w) = files w.
Proof. reflexivity. Qed.

Lemma files_print s line w : files (print s line w) = files w.
Proof. reflexivity. Qed.

Lemma console_prints lines w : console (prints lines w) = (console w ++ lines)%list.
Proof. reflexivity. Qed.

Ltac console_norm := rewrite ?print_as_prints, ?prints_prints; cbn [app].

Section InstallerFacts.
Variable rt : runtime.

Lemma open_mode_insert dest c m w :
  open_mode rt dest (set_files (insert dest (File c m)) w) = m.
Proof. unfold open_mode; simpl. by rewrite lookup_insert_eq. Qed.

Lemma open_mode_print dest s l w :
  open_mode rt dest (print s l w) = open_mode rt dest w.
Proof. reflexivity. Qed.

(** One turn of [downloadBinary]: log, open the stream, issue the GET and
    dispatch on what comes back. *)
Lemma downloadBinary_S fuel url dest w :
  Install.downloadBinary rt (S fuel) url dest w =
  let w1 := set_files (insert dest (File [] (open_mode rt dest w)))
              (print stdout ("📥 Downloading from " +:+ Install.template url +:+ "...") w) in
  match https_net rt url with
  | InvalidRequest e => (Thrown e, w1)
  | TransportError e => (Thrown e, set_files (delete dest) (record_request url w1))
  | Responded r =>
      if Z.eqb (statusCode r) 302 || Z.eqb (statusCode r) 301 then
        Install.downloadBinary rt fuel (location r) dest (record_request url w1)
      else if negb (Z.eqb (statusCode r) 200) then
        (Thrown (Error ("Failed to download: HTTP " +:+ pretty (statusCode r))),
         record_request url w1)
      else
        (Returned tt,
         set_files (insert dest (File (body r) (open_mode rt dest w)))
           (record_request url w1))
  end.
Proof.
  cbn [Install.downloadBinary].
  unfold bind at 1. unfold console_log at 1.
  unfold bind at 1. unfold createWriteStream at 1.
  fold (open_mode rt dest
          (print stdout ("📥 Downloading from " +:+ Install.template url +:+ "...") w)).
  rewrite open_mode_print.
  unfold bind at 1. unfold https_get at 1.
  cbv zeta.
  destruct (https_net rt url) as [e|e|r]; try reflexivity.
  destruct (Z.eqb (statusCode r) 302 || Z.eqb (statusCode r) 301); [reflexivity|].
  destruct (Z.eqb (statusCode r) 200); cbn [negb]; [|reflexivity].
  unfold bind, pipe, ret.
  cbn [files record_request set_files].
  by rewrite lookup_insert_eq.
Qed.

Lemma redirect_chain_nonempty url trail out :
  redirect_chain rt url trail out -> trail <> [].
Proof. destruct 1; discriminate. Qed.

Lemma on_wire_cons url trail out :
  trail <> [] -> on_wire (url :: trail) out = Some url :: on_wire trail out.
Proof.
  intros Hne. destruct out; try reflexivity.
  destruct trail; [congruence | reflexivity].
Qed.

Lemma redirection_test r :
  redirection r <-> Z.eqb (statusCode r) 302 || Z.eqb (statusCode r) 301 = true.
Proof.
  unfold redirection. rewrite orb_true_iff, !Z.eqb_eq. tauto.
Qed.

Lemma rest_insert dest f c m fs :
  rest dest f (<[dest := File c m]> fs) = rest dest f fs.
Proof.
  destruct f; simpl; [apply insert_insert_eq | apply delete_insert_eq].
Qed.

(** The whole effect of a download along a redirect chain. *)
Lemma download_chain url trail out :
  redirect_chain rt url trail out ->
  forall fuel dest w,
    (length trail <= fuel)%nat ->
    Install.downloadBinary rt fuel (Some url) dest w =
    (settled out,
     World (rest dest (settled_file (open_mode rt dest w) out) (files w))
           (dirs w)
           (console w ++ (progress <$> trail))
           (requests w ++ on_wire trail out)
           (spawned w)).
Proof.
  induction 1 as [url out Hnet Hterm | url r next trail out Hnet Hred Hloc Hchain IH];
    intros fuel dest w Hfuel.
  - destruct fuel as [|fuel]; [simpl in Hfuel; lia|].
    rewrite downloadBinary_S, Hnet. cbv zeta.
    destruct out as [e|e|r]; cbn; world_simpl.
    + by rewrite app_nil_r.
    + by rewrite delete_insert_eq.
    + assert (Hno : Z.eqb (statusCode r) 302 || Z.eqb (statusCode r) 301 = false).
      { apply not_true_is_false. rewrite <- redirection_test. by apply Hterm. }
      rewrite Hno. destruct (Z.eqb (statusCode r) 200); cbn; world_simpl.
      * by rewrite insert_insert_eq.
      * reflexivity.
  - destruct fuel as [|fuel]; [simpl in Hfuel; lia|].
    rewrite downloadBinary_S, Hnet. cbv zeta.
    apply redirection_test in Hred. rewrite Hred, Hloc.
    rewrite IH by (simpl in Hfuel; lia).
    change (open_mode rt dest (record_request (Some url) ?w')) with (open_mode rt dest w').
    rewrite open_mode_insert. world_simpl.
    rewrite rest_insert.
    rewrite on_wire_cons by (eapply redirect_chain_nonempty; eauto).
    rewrite fmap_cons, <- !app_assoc. reflexivity.
Qed.

(** *** Platform resolution *)

Lemma get_property_nonempty key suffix :
  Install.get_property Install.PLATFORM_MAP key = Some suffix ->
  String.eqb suffix "" = false.
Proof.
  cbn [Install.get_property Install.PLATFORM_MAP].
  repeat (match goal with
          | |- context [if String.eqb ?k key then _ else _] =>
              destruct (String.eqb k key)
          end;
          [intros [= <-]; reflexivity|]).
  discriminate.
Qed.

Lemma getPlatform_supported suffix w :
  supported rt suffix -> Install.getPlatform rt w = (Returned suffix, w).
Proof.
  unfold supported, platform_key, Install.getPlatform. intros Hs.
  cbv zeta. rewrite Hs. cbn [Install.falsy].
  by rewrite (get_property_nonempty _ _ Hs).
Qed.

Lemma getPlatform_unsupported w :
  unsupported rt ->
  Install.getPlatform rt w =
  (Exited 1, prints (unsupported_notice (process_platform rt) (process_arch rt)) w).
Proof.
  unfold unsupported, platform_key, Install.getPlatform. intros Hs.
  cbv zeta. rewrite Hs. cbn [Install.falsy].
  unfold bind, console_error, process_exit.
  cbn [Install.Object_keys Install.PLATFORM_MAP map fst forEach default].
  unfold bind, console_error, ret.
  console_norm. reflexivity.
Qed.

(** *** The [try] and [catch] blocks *)

Lemma fallback_run e w :
  Install.fallback e w = (Exited 0, prints (remediation e) w).
Proof.
  unfold Install.fallback, bind, console_error, process_exit.
  cbn [default]. console_norm. reflexivity.
Qed.

Lemma install_supported suffix fuel w :
  supported rt suffix ->
  Install.install rt fuel w =
  try_catch (Install.fetch rt fuel suffix) Install.fallback (prepared rt w).
Proof.
  intros Hs. unfold Install.install.
  unfold bind at 1. unfold console_log at 1.
  unfold bind at 1. rewrite (getPlatform_supported _ _ Hs).
  unfold bind at 1. unfold bind at 1. unfold existsSync at 1.
  unfold prepared. cbn [snd banner].
  destruct (bool_decide _ || bool_decide _); reflexivity.
Qed.

Lemma fetch_thrown fuel suffix e w w' :
  Install.downloadBinary rt fuel (Some (Install.downloadUrl rt suffix))
    (Install.binaryPath rt) w = (Thrown e, w') ->
  Install.fetch rt fuel suffix w = (Thrown e, w').
Proof. intros H. unfold Install.fetch. unfold bind at 1. by rewrite H. Qed.

Lemma fetch_pending fuel suffix w w' :
  Install.downloadBinary rt fuel (Some (Install.downloadUrl rt suffix))
    (Install.binaryPath rt) w = (Pending, w') ->
  Install.fetch rt fuel suffix w = (Pending, w').
Proof. intros H. unfold Install.fetch. unfold bind at 1. by rewrite H. Qed.

End InstallerFacts.

(** ** Claims about the installer *)

Section InstallerClaims.
Variable rt : runtime.

(** A download that fulfils its promise leaves a file at the destination. *)
Lemma download_returned_file fuel :
  forall url dest w w',
    Install.downloadBinary rt fuel url dest w = (Returned tt, w') ->
    is_Some (files w' !! dest).
Proof.
  induction fuel as [|fuel IH]; intros url dest w w'.
  - discriminate.
  - rewrite downloadBinary_S. cbv zeta.
    destruct (https_net rt url) as [e|e|r]; try discriminate.
    destruct (Z.eqb (statusCode r) 302 || Z.eqb (statusCode r) 301).
    + apply IH.
    + destruct (Z.eqb (statusCode r) 200); cbn [negb]; [|discriminate].
      intros [= <-]. world_simpl. rewrite lookup_insert_eq. eauto.
Qed.

(** Every way a chain can end other than in a 200 response rejects the
    promise. *)
Lemma download_failure_thrown out :
  (forall r, out = Responded r -> statusCode r <> 200) ->
  exists e, settled out = Thrown e.
Proof.
  intros Hbad. destruct out as [e|e|r]; cbn; eauto.
  destruct (Z.eqb_spec (statusCode r) 200) as [H200|]; eauto.
  by destruct (Hbad r eq_refl).
Qed.

(** A transport error removes the file the write stream had created. *)
Lemma download_transport_error_unlinks url trail e fuel dest w :
  redirect_chain rt url trail (TransportError e) ->
  (length trail <= fuel)%nat ->
  fst (Install.downloadBinary rt fuel (Some url) dest w) = Thrown e /\
  files (snd (Install.downloadBinary rt fuel (Some url) dest w)) !! dest = None.
Proof.
  intros Hchain Hfuel. rewrite (download_chain _ _ _ _ Hchain) by done.
  split; [reflexivity|]. cbn. apply lookup_delete_eq.
Qed.

(** C1: on a platform key absent from [PLATFORM_MAP] the script logs its
    banner and the notice listing the five supported keys and the
    build-from-source steps, and then leaves through [process.exit(1)]:
    the postinstall step ends with the failing status 1, not with 0. *)
Theorem install_unsupported_platform_exits_1 fuel w :
  unsupported rt ->
  Install.main rt fuel w =
    (Exited 1,
     prints (banner :: unsupported_notice (process_platform rt) (process_arch rt)) w) /\
  exit_status (fst (Install.main rt fuel w)) = Some 1.
Proof.
  intros Hu.
  assert (Hmain : Install.main rt fuel w =
    (Exited 1,
     prints (banner :: unsupported_notice (process_platform rt) (process_arch rt)) w)).
  { unfold Install.main, try_catch, Install.install.
    unfold bind at 1. unfold console_log at 1.
    unfold bind at 1. rewrite (getPlatform_unsupported _ _ Hu).
    unfold banner. console_norm. reflexivity. }
  by rewrite Hmain.
Qed.


(** Peel one character off the unknown prefix [p] of a key equation
    [literal = p +:+ "-" +:+ a]. *)
Ltac peel H p :=
  destruct p as [|? p];
  cbv beta iota delta [String.append] in H; fold String.append in H;
  [ try discriminate H
  | first [ discriminate H | injection H as <- H ] ].

(** A supported host is one of the five rows of the table: the key has a
    single dash, so it determines the OS and the CPU. *)
Lemma supported_row suffix :
  supported rt suffix ->
  In (process_platform rt, process_arch rt, suffix) platform_table.
Proof.
  unfold supported, platform_key.
  generalize (process_platform rt) (process_arch rt). intros p a.
  cbn [Install.get_property Install.PLATFORM_MAP].
  repeat (match goal with
          | |- context [if String.eqb ?k ?key then _ else _] =>
              destruct (String.eqb_spec k key) as [Hkey|_]
          end;
          [ intros [= <-]; repeat peel Hkey p; injection Hkey as <-;
            cbn; tauto | ]).
  discriminate.
Qed.



(** C5: when a redirect chain ends in a status other than 200 (such as
    404), the promise is rejected and the empty file created by
    [fs.createWriteStream] is still at the destination: this path never
    unlinks it. *)
Theorem download_http_error_leaves_empty_file url trail r fuel dest w :
  redirect_chain rt url trail (Responded r) ->
  statusCode r <> 200 ->
  (length trail <= fuel)%nat ->
  fst (Install.downloadBinary rt fuel (Some url) dest w) =
    Thrown (Error ("Failed to download: HTTP " +:+ pretty (statusCode r))) /\
  files (snd (Install.downloadBinary rt fuel (Some url) dest w)) !! dest =
    Some (File [] (open_mode rt dest w)).
Proof.
  intros Hchain Hbad Hfuel.
  rewrite (download_chain _ _ _ _ Hchain) by done.
  apply Z.eqb_neq in Hbad. cbn. rewrite Hbad. split; [reflexivity|].
  apply lookup_insert_eq.
Qed.

(** C6: when the download promise is fulfilled, [install] completes and
    logs its success report; off Windows the binary then has mode [0o755],
    so all three execute bits and in particular owner-execute are set and
    its bytes are untouched; on Windows the files are exactly as the
    download left them. *)
Theorem install_sets_executable_bits suffix fuel w w' :
  supported rt suffix ->
  Install.downloadBinary rt fuel (Some (Install.downloadUrl rt suffix))
    (Install.binaryPath rt) (prepared rt w) = (Returned tt, w') ->
  exists w'',
    Install.main rt fuel w = (Returned tt, w'') /\
    console w'' = (console w' ++ success_report rt)%list /\
    (process_platform rt <> "win32" ->
       exists f f',
         files w' !! Install.binaryPath rt = Some f /\
         files w'' !! Install.binaryPath rt = Some f' /\
         content f' = content f /\
         mode f' = rwxr_xr_x /\
         Z.land (mode f') execute_bits = execute_bits /\
         Z.testbit (mode f') owner_execute_bit = true) /\
    (process_platform rt = "win32" -> files w'' = files w').
Proof.
  intros Hs Hdl.
  destruct (download_returned_file _ _ _ _ _ Hdl) as [f Hf].
  unfold Install.main. unfold try_catch at 1.
  rewrite (install_supported _ _ _ _ Hs). unfold try_catch.
  unfold Install.fetch. unfold bind at 1. rewrite Hdl.
  destruct (String.eqb_spec (process_platform rt) "win32") as [Hwin|Hunix];
    cbn [negb].
  - eexists. split; [reflexivity|].
    unfold bind, console_log, ret. console_norm.
    split; [reflexivity|]. split; [done|]. intros _. reflexivity.
  - unfold bind at 1. unfold bind at 1. unfold chmodSync at 1. rewrite Hf.
    eexists. split; [reflexivity|].
    unfold bind, console_log. console_norm.
    split; [reflexivity|]. split; [|done]. intros _.
    exists f, (File (content f) 493).
    rewrite files_prints. unfold set_files. cbn [files content mode].
    rewrite lookup_insert_eq. repeat split; done.
Qed.

End InstallerClaims.

(** ** Claims about the launcher *)

Section LauncherClaims.
Variable rt : runtime.

Lemma spawn_present req f w :
  files w !! spawn_file req = Some f ->
  spawn rt req w = (Returned (os_child rt req), record_spawn req w).
Proof. intros Hf. unfold spawn. by rewrite Hf. Qed.

Lemma spawn_absent req w :
  files w !! spawn_file req = None ->
  spawn rt req w =
  (Returned (SpawnFailed (Error ("spawn " +:+ spawn_file req +:+ " ENOENT"))),
   record_spawn req w).
Proof. intros Hf. unfold spawn. by rewrite Hf. Qed.


(** C7: [index.js] does not look for the binary before spawning it.  When
    the file is missing the child emits ['error'], for which the script
    has no listener: the launcher prints nothing of its own (no path, no
    reinstall hint) and dies of the uncaught [spawn ... ENOENT] exception,
    with status 1. *)
Theorem launcher_missing_binary_uncaught argv w :
  files w !! Launcher.binPath rt = None ->
  Launcher.main rt argv w =
    (Thrown (Error ("spawn " +:+ Launcher.binPath rt +:+ " ENOENT")),
     record_spawn (launch_request rt (Launcher.slice 2 argv)) w) /\
  console (snd (Launcher.main rt argv w)) = console w /\
  exit_status (fst (Launcher.main rt argv w)) = Some 1.
Proof.
  intros Hf.
  assert (Hmain : Launcher.main rt argv w =
    (Thrown (Error ("spawn " +:+ Launcher.binPath rt +:+ " ENOENT")),
     record_spawn (launch_request rt (Launcher.slice 2 argv)) w)).
  { unfold Launcher.main, bind. by rewrite spawn_absent. }
  by rewrite Hmain.
Qed.


(** C9: for any arguments [args] typed after the script name, the launcher
    makes exactly one [spawn] call: on the installed binary, with [args]
    themselves, in order, as the argument vector, and with
    [stdio: 'inherit']. *)
Theorem launcher_forwards_arguments node script args w :
  spawned (snd (Launcher.main rt (node :: script :: args) w)) =
    (spawned w ++ [Spawn (Launcher.binPath rt) args StdioInherit true])%list /\
  spawn_args (launch_request rt args) = args /\
  spawn_stdio (launch_request rt args) = StdioInherit.
Proof.
  split; [|done].
  unfold Launcher.main, bind, spawn, Launcher.on_exit, Launcher.slice.
  cbn [skipn].
  destruct (files w !! _); [destruct (os_child rt _)|]; reflexivity.
Qed.

(** C10: when the child is killed by a signal, the ['exit'] listener gets
    a null [code], [process.exit(null)] is called, and the launcher ends
    with status 0. *)
Theorem launcher_signal_exits_0 node script args w f signal :
  files w !! Launcher.binPath rt = Some f ->
  os_child rt (launch_request rt args) = ChildKilled signal ->
  exit_code (os_child rt (launch_request rt args)) = None /\
  Launcher.main rt (node :: script :: args) w =
    (Exited 0, record_spawn (launch_request rt args) w) /\
  exit_status (fst (Launcher.main rt (node :: script :: args) w)) = Some 0.
Proof.
  intros Hf Hkill.
  assert (Hmain : Launcher.main rt (node :: script :: args) w =
    (Exited 0, record_spawn (launch_request rt args) w)).
  { unfold Launcher.main, bind. rewrite (spawn_present _ f) by done.
    change (Spawn _ _ _ _) with (launch_request rt args). by rewrite Hkill. }
  rewrite Hmain, Hkill. done.
Qed.

End LauncherClaims.

(** ** The statements at work on concrete hosts *)

Import Scenario.

Lemma terminal_status status loc bytes :
  status <> 301 -> status <> 302 ->
  terminal (Responded (Response status loc bytes)).
Proof. intros H301 H302 r [= <-] [H|H]; cbn in H; congruence. Defined.


(** No asset for this platform: 404 at once. *)
Lemma arm_chain :
  redirect_chain linux_arm64 arm_asset_url [arm_asset_url]
    (Responded (Response 404 None [])).
Proof.
  apply chain_end; [reflexivity | apply terminal_status; discriminate].
Defined.

Lemma install_unsupported_platform_exits_1_witness :
  unsupported freebsd_x64 /\
  exit_status (fst (Install.main freebsd_x64 3 fresh)) = Some 1.
Proof.
  split; [reflexivity|].
  refine (proj2 (install_unsupported_platform_exits_1 freebsd_x64 3 fresh _)).
  reflexivity.
Defined.




Lemma download_http_error_leaves_empty_file_witness :
  statusCode (Response 404 None []) <> 200 /\
  files (snd (Install.downloadBinary linux_arm64 1 (Some arm_asset_url)
                "/pkg/bin/portalis" fresh)) !! "/pkg/bin/portalis" =
    Some (File [] 420).
Proof.
  assert (H404 : statusCode (Response 404 None []) <> 200) by discriminate.
  split; [exact H404|].
  refine (proj2 (download_http_error_leaves_empty_file linux_arm64 _ _ _ 1
                   "/pkg/bin/portalis" fresh arm_chain H404 _)).
  cbn; lia.
Defined.

Lemma install_sets_executable_bits_witness :
  supported linux_x64 "linux-x86_64" /\
  process_platform linux_x64 <> "win32" /\
  exists w'',
    Install.main linux_x64 5 fresh = (Returned tt, w'') /\
    exists f', files w'' !! Install.binaryPath linux_x64 = Some f' /\
               mode f' = rwxr_xr_x /\
               Z.testbit (mode f') owner_execute_bit = true.
Proof.
  assert (Hunix : process_platform linux_x64 <> "win32") by discriminate.
  split; [reflexivity|]. split; [exact Hunix|].
  destruct (install_sets_executable_bits linux_x64 "linux-x86_64" 5 fresh
              (snd (Install.downloadBinary linux_x64 5
                      (Some (Install.downloadUrl linux_x64 "linux-x86_64"))
                      (Install.binaryPath linux_x64) (prepared linux_x64 fresh))))
    as (w'' & Hmain & _ & Hmode & _).
  - reflexivity.
  - vm_compute; reflexivity.
  - exists w''. split; [exact Hmain|].
    destruct (Hmode Hunix) as (f & f' & _ & Hf' & _ & Hm & _ & Hx).
    exists f'. auto.
Defined.

Lemma launcher_missing_binary_uncaught_witness :
  files fresh !! Launcher.binPath linux_x64 = None /\
  exit_status (fst (Launcher.main linux_x64 ["node"; "index.js"; "--help"] fresh)) = Some 1.
Proof.
  split; [reflexivity|].
  refine (proj2 (proj2 (launcher_missing_binary_uncaught linux_x64
                          ["node"; "index.js"; "--help"] fresh _))).
  reflexivity.
Defined.


Lemma launcher_signal_exits_0_witness :
  os_child linux_x64 (launch_request linux_x64 ["--help"]) = ChildKilled "SIGKILL" /\
  exit_status (fst (Launcher.main linux_x64 ["node"; "index.js"; "--help"] installed)) = Some 0.
Proof.
  split; [reflexivity|].
  refine (proj2 (proj2 (launcher_signal_exits_0 linux_x64 "node" "index.js" ["--help"]
                          installed (File asset 493) "SIGKILL" _ _))).
  - vm_compute; reflexivity.
  - reflexivity.
Defined.

(** ** Further properties of [downloadBinary] *)

Section DownloadFacts.
Variable rt : runtime.

(** [downloadBinary] settles or stays pending; it never ends the process. *)
Lemma download_not_exited fuel :
  forall url dest w c,
    fst (Install.downloadBinary rt fuel url dest w) <> Exited c.
Proof.
  induction fuel as [|fuel IH]; intros url dest w c.
  - discriminate.
  - rewrite downloadBinary_S. cbv zeta.
    destruct (https_net rt url) as [e|e|r]; try discriminate.
    destruct (Z.eqb (statusCode r) 302 || Z.eqb (statusCode r) 301); [apply IH|].
    destruct (Z.eqb (statusCode r) 200); discriminate.
Qed.

(** What a download can change: the file at [dest], and the ends of the
    console and of the request log. *)
Lemma download_effects fuel :
  forall url dest w,
    dirs (snd (Install.downloadBinary rt fuel url dest w)) = dirs w /\
    spawned (snd (Install.downloadBinary rt fuel url dest w)) = spawned w /\
    (forall p, p <> dest ->
       files (snd (Install.downloadBinary rt fuel url dest w)) !! p = files w !! p) /\
    (exists lines,
       console (snd (Install.downloadBinary rt fuel url dest w)) =
       (console w ++ lines)%list) /\
    (exists targets,
       requests (snd (Install.downloadBinary rt fuel url dest w)) =
       (requests w ++ targets)%list).
Proof.
  induction fuel as [|fuel IH]; intros url dest w.
  - cbn. repeat split; try done; exists []; by rewrite app_nil_r.
  - rewrite downloadBinary_S. cbv zeta.
    destruct (https_net rt url) as [e|e|r].
    + cbn. world_simpl. repeat split; try done.
      * intros p Hp. by rewrite lookup_insert_ne.
      * eauto.
      * exists []. by rewrite app_nil_r.
    + cbn. world_simpl. repeat split; try done.
      * intros p Hp. by rewrite lookup_delete_ne, lookup_insert_ne.
      * eauto.
      * eauto.
    + destruct (Z.eqb (statusCode r) 302 || Z.eqb (statusCode r) 301).
      * destruct (IH (location r) dest
                    (record_request url
                       (set_files (insert dest (File [] (open_mode rt dest w)))
                          (print stdout
                             ("📥 Downloading from " +:+ Install.template url +:+ "...")
                             w))))
          as (Hd & Hs & Hf & [lines Hc] & [targets Hr]).
        rewrite Hd, Hs, Hc, Hr. split; [done|]. split; [done|]. split; [|split].
        -- intros p Hp. rewrite (Hf p Hp). world_simpl. by rewrite lookup_insert_ne.
        -- world_simpl. rewrite <- app_assoc. eauto.
        -- world_simpl. rewrite <- app_assoc. eauto.
      * destruct (Z.eqb (statusCode r) 200); cbn; world_simpl;
          repeat split; try done; eauto.
        -- intros p Hp. by rewrite !lookup_insert_ne.
        -- intros p Hp. by rewrite lookup_insert_ne.
Qed.

End DownloadFacts.

Section DownloadProperties.
Variable rt : runtime.

(** X1: whatever the network answers and however many redirects are
    followed, [downloadBinary] changes no file other than its destination,
    creates no directory and starts no process. *)
Theorem download_touches_only_dest fuel url dest w p :
  p <> dest ->
  files (snd (Install.downloadBinary rt fuel url dest w)) !! p = files w !! p /\
  dirs (snd (Install.downloadBinary rt fuel url dest w)) = dirs w /\
  spawned (snd (Install.downloadBinary rt fuel url dest w)) = spawned w.
Proof.
  intros Hp.
  destruct (download_effects rt fuel url dest w) as (Hd & Hs & Hf & _).
  auto.
Qed.

(** X2: there is no bound on the redirects followed.  Against a target
    that redirects to itself the promise never settles: whatever the
    budget, it is still pending after one GET per unit of budget, all to
    the same target. *)
Theorem download_redirect_loop_never_settles url r dest :
  https_net rt (Some url) = Responded r ->
  redirection r ->
  location r = Some url ->
  forall fuel w,
    fst (Install.downloadBinary rt fuel (Some url) dest w) = Pending /\
    requests (snd (Install.downloadBinary rt fuel (Some url) dest w)) =
      (requests w ++ replicate fuel (Some url))%list.
Proof.
  intros Hnet Hred Hloc. apply redirection_test in Hred.
  induction fuel as [|fuel IH]; intros w.
  - cbn. by rewrite app_nil_r.
  - rewrite downloadBinary_S, Hnet. cbv zeta. rewrite Hred, Hloc.
    destruct (IH (record_request (Some url)
                    (set_files (insert dest (File [] (open_mode rt dest w)))
                       (print stdout
                          ("📥 Downloading from " +:+ Install.template (Some url) +:+ "...")
                          w)))) as [Hp Hr].
    split; [exact Hp|]. rewrite Hr. world_simpl.
    by rewrite <- app_assoc.
Qed.



(** X5: when a chain of redirects leads to a target that [https.get]
    refuses outright (it throws before sending anything), the promise is
    rejected with that exception, the refused target never reaches the
    wire, and the empty file opened for it stays at the destination. *)
Theorem download_refused_target_leaves_file url trail e fuel dest w :
  redirect_chain rt url trail (InvalidRequest e) ->
  (length trail <= fuel)%nat ->
  fst (Install.downloadBinary rt fuel (Some url) dest w) = Thrown e /\
  requests (snd (Install.downloadBinary rt fuel (Some url) dest w)) =
    (requests w ++ (Some <$> removelast trail))%list /\
  files (snd (Install.downloadBinary rt fuel (Some url) dest w)) !! dest =
    Some (File [] (open_mode rt dest w)).
Proof.
  intros Hchain Hfuel. rewrite (download_chain _ _ _ _ Hchain) by done.
  cbn. split; [reflexivity|]. split; [reflexivity|]. apply lookup_insert_eq.
Qed.

End DownloadProperties.

(** ** Further properties of the installer as a whole *)


Section InstallFacts.
Variable rt : runtime.


Lemma prepared_requests w : requests (prepared rt w) = requests w.
Proof. unfold prepared. cbv zeta. by destruct (_ || _). Qed.

Lemma prepared_spawned w : spawned (prepared rt w) = spawned w.
Proof. unfold prepared. cbv zeta. by destruct (_ || _). Qed.

Lemma prepared_console w : console (prepared rt w) = (console w ++ [banner])%list.
Proof. unfold prepared. cbv zeta. by destruct (_ || _). Qed.

Lemma prepared_dirs w :
  dirs (prepared rt w) =
  if bool_decide (is_Some (files w !! Install.binDir rt))
     || bool_decide (Install.binDir rt ∈ dirs w)
  then dirs w
  else {[ Install.binDir rt ]} ∪ dirs w.
Proof.
  unfold prepared. cbv zeta. rewrite files_print.
  change (dirs (print stdout (snd banner) w)) with (dirs w).
  by destruct (_ || _).
Qed.



(** The three ways the [try]/[catch] of [install] can go, by how the
    download promise behaves. *)
Lemma attempt_cases suffix fuel w1 o w' :
  Install.downloadBinary rt fuel (Some (Install.downloadUrl rt suffix))
    (Install.binaryPath rt) w1 = (o, w') ->
  match o with
  | Returned _ =>
      exists f,
        files w' !! Install.binaryPath rt = Some f /\
        try_catch (Install.fetch rt fuel suffix) Install.fallback w1 =
        (Returned tt,
         prints (success_report rt)
           (if String.eqb (process_platform rt) "win32" then w'
            else set_files (insert (Install.binaryPath rt) (File (content f) 493)) w'))
  | Thrown e =>
      try_catch (Install.fetch rt fuel suffix) Install.fallback w1 =
      (Exited 0, prints (remediation e) w')
  | Exited _ => False
  | Pending =>
      try_catch (Install.fetch rt fuel suffix) Install.fallback w1 = (Pending, w')
  end.
Proof.
  intros Hd. destruct o as [[]|e|c|].
  - destruct (download_returned_file _ _ _ _ _ _ Hd) as [f Hf].
    exists f. split; [exact Hf|].
    unfold try_catch, Install.fetch. unfold bind at 1. rewrite Hd.
    destruct (String.eqb (process_platform rt) "win32"); cbn [negb].
    + unfold bind, console_log, ret. console_norm. reflexivity.
    + unfold bind at 1. unfold bind at 1. unfold chmodSync at 1. rewrite Hf.
      unfold bind, console_log. console_norm. reflexivity.
  - unfold try_catch. rewrite (fetch_thrown _ _ _ _ _ _ Hd). apply fallback_run.
  - apply (download_not_exited rt fuel (Some (Install.downloadUrl rt suffix))
             (Install.binaryPath rt) w1 c).
    by rewrite Hd.
  - unfold try_catch. by rewrite (fetch_pending _ _ _ _ _ Hd).
Qed.


(** The outer [catch] lets through whatever [install] did on a supported
    host. *)
Lemma main_supported suffix fuel w :
  supported rt suffix ->
  Install.main rt fuel w =
  match try_catch (Install.fetch rt fuel suffix) Install.fallback (prepared rt w) with
  | (Thrown e, w') =>
      (Exited 0, print stderr ("Installation error: " +:+ message e) w')
  | r => r
  end.
Proof.
  intros Hs. unfold Install.main. unfold try_catch at 1.
  rewrite (install_supported _ _ _ _ Hs).
  destruct (try_catch _ _ _) as [[[]|e|c|] w']; reflexivity.
Qed.

(** The first GET of a download goes to the target it was given. *)
Lemma download_first_request fuel url dest w :
  (forall e, https_net rt (Some url) <> InvalidRequest e) ->
  exists more,
    requests (snd (Install.downloadBinary rt (S fuel) (Some url) dest w)) =
    (requests w ++ Some url :: more)%list.
Proof.
  intros Hvalid. rewrite downloadBinary_S. cbv zeta.
  destruct (https_net rt (Some url)) as [e|e|r] eqn:Hnet.
  - by destruct (Hvalid e).
  - exists []. reflexivity.
  - destruct (Z.eqb (statusCode r) 302 || Z.eqb (statusCode r) 301).
    + match goal with
      | |- context [Install.downloadBinary rt fuel ?u dest ?w1] =>
          destruct (download_effects rt fuel u dest w1) as (_ & _ & _ & _ & [more Hr])
      end.
      rewrite Hr. world_simpl. rewrite <- app_assoc. eauto.
    + destruct (Z.eqb (statusCode r) 200); exists []; reflexivity.
Qed.

End InstallFacts.

Section InstallProperties.
Variable rt : runtime.

(** X6: [getPlatform] returns a suffix, silently, exactly for the five
    (OS, CPU) pairs of the table; for every other host it does not return. *)
Theorem getPlatform_accepts_exactly_table suffix w :
  Install.getPlatform rt w = (Returned suffix, w) <->
  In (process_platform rt, process_arch rt, suffix) platform_table.
Proof.
  split.
  - intros Hret. apply supported_row. unfold supported.
    destruct (Install.get_property Install.PLATFORM_MAP (platform_key rt))
      as [s|] eqn:Hkey.
    + rewrite (getPlatform_supported rt s w Hkey) in Hret. congruence.
    + rewrite (getPlatform_unsupported rt w Hkey) in Hret. discriminate.
  - intros Hrow. apply getPlatform_supported.
    unfold supported, platform_key. cbn in Hrow.
    repeat (destruct Hrow as [[= Hp Ha Hx] | Hrow];
            [rewrite <- Hp, <- Ha, <- Hx; reflexivity|]).
    destruct Hrow.
Qed.


(** X8: on a supported host the script makes sure the [bin] directory
    exists and creates no other: if something is already at that path the
    directories are left as they were, otherwise [bin] is the one
    directory added, whether or not the download then succeeds. *)
Theorem install_ensures_bin_dir suffix fuel w :
  supported rt suffix ->
  dirs (snd (Install.main rt fuel w)) =
  if bool_decide (is_Some (files w !! Install.binDir rt))
     || bool_decide (Install.binDir rt ∈ dirs w)
  then dirs w
  else {[ Install.binDir rt ]} ∪ dirs w.
Proof.
  intros Hs. rewrite <- prepared_dirs. rewrite (main_supported _ _ _ _ Hs).
  destruct (download_effects rt fuel (Some (Install.downloadUrl rt suffix))
              (Install.binaryPath rt) (prepared rt w)) as (Hdirs & _).
  destruct (Install.downloadBinary rt fuel (Some (Install.downloadUrl rt suffix))
              (Install.binaryPath rt) (prepared rt w)) as [o w'] eqn:Hd.
  cbn [snd] in Hdirs. rewrite <- Hdirs.
  pose proof (attempt_cases _ _ _ _ _ _ Hd) as Hcase.
  destruct o as [[]|e|c|].
  - destruct Hcase as (f & _ & ->).
    by destruct (String.eqb (process_platform rt) "win32").
  - by rewrite Hcase.
  - destruct Hcase.
  - by rewrite Hcase.
Qed.

(** X9: on a supported host, unless [https.get] refuses the URL outright,
    the first request the script puts on the wire is a GET of the release
    URL built from the platform suffix and the package version. *)
Theorem install_first_request suffix fuel w :
  supported rt suffix ->
  (forall e, https_net rt (Some (Install.downloadUrl rt suffix)) <> InvalidRequest e) ->
  exists more,
    requests (snd (Install.main rt (S fuel) w)) =
    (requests w ++ Some (Install.downloadUrl rt suffix) :: more)%list.
Proof.
  intros Hs Hvalid.
  destruct (download_first_request rt fuel (Install.downloadUrl rt suffix)
              (Install.binaryPath rt) (prepared rt w) Hvalid) as [more Hreq].
  exists more. rewrite prepared_requests in Hreq. rewrite <- Hreq.
  rewrite (main_supported _ _ _ _ Hs).
  destruct (Install.downloadBinary rt (S fuel) (Some (Install.downloadUrl rt suffix))
              (Install.binaryPath rt) (prepared rt w)) as [o w'] eqn:Hd.
  pose proof (attempt_cases _ _ _ _ _ _ Hd) as Hcase. cbn [snd].
  destruct o as [[]|e|c|].
  - destruct Hcase as (f & _ & ->).
    by destruct (String.eqb (process_platform rt) "win32").
  - by rewrite Hcase.
  - destruct Hcase.
  - by rewrite Hcase.
Qed.


(** X11: a connection that fails costs the installed binary.  When the
    chain of redirects ends in a transport error, the script prints the
    remediation guidance and leaves with status 0, and nothing is left at
    the binary's path: not the partial download and not a binary that an
    earlier installation had put there. *)
Theorem install_transport_error_removes_binary suffix trail e fuel w :
  supported rt suffix ->
  redirect_chain rt (Install.downloadUrl rt suffix) trail (TransportError e) ->
  (length trail <= fuel)%nat ->
  fst (Install.main rt fuel w) = Exited 0 /\
  files (snd (Install.main rt fuel w)) !! Install.binaryPath rt = None /\
  console (snd (Install.main rt fuel w)) =
    (console w ++ banner :: (progress <$> trail) ++ remediation e)%list.
Proof.
  intros Hs Hchain Hfuel.
  assert (Hd := download_chain rt _ _ _ Hchain fuel (Install.binaryPath rt)
                  (prepared rt w) Hfuel).
  cbn [settled settled_file rest] in Hd.
  pose proof (attempt_cases _ _ _ _ _ _ Hd) as Hrun.
  rewrite (main_supported _ _ _ _ Hs), Hrun.
  split; [reflexivity|]. cbn [snd]. rewrite files_prints, console_prints.
  cbn [files console]. split; [apply lookup_delete_eq|].
  rewrite prepared_console, <- !app_assoc. reflexivity.
Qed.


End InstallProperties.

(** ** Further properties of the launcher and of the Windows wrapper *)

Section LauncherProperties.
Variable rt : runtime.

(** X13: the launcher has no ['error'] listener at all.  When the binary
    is on disk but the operating system cannot start it, the child's
    ['error'] event goes unhandled just as for a missing file: the script
    prints nothing and the process dies of the uncaught exception, with
    status 1 whatever the error was. *)
Theorem launcher_spawn_error_uncaught argv w f e :
  files w !! Launcher.binPath rt = Some f ->
  os_child rt (launch_request rt (Launcher.slice 2 argv)) = SpawnFailed e ->
  Launcher.main rt argv w =
    (Thrown e, record_spawn (launch_request rt (Launcher.slice 2 argv)) w) /\
  console (snd (Launcher.main rt argv w)) = console w /\
  exit_status (fst (Launcher.main rt argv w)) = Some 1.
Proof.
  intros Hf Hos.
  assert (Hmain : Launcher.main rt argv w =
    (Thrown e, record_spawn (launch_request rt (Launcher.slice 2 argv)) w)).
  { unfold Launcher.main, bind.
    change (Spawn _ _ _ _) with (launch_request rt (Launcher.slice 2 argv)).
    rewrite (spawn_present rt (launch_request rt (Launcher.slice 2 argv)) _ _ Hf).
    by rewrite Hos. }
  by rewrite Hmain.
Qed.


End LauncherProperties.

(** ** The further properties at work on concrete hosts *)

Lemma download_touches_only_dest_witness :
  "/pkg/README.md" <> "/pkg/bin/portalis" /\
  files (snd (Install.downloadBinary linux_x64 5 (Some linux_asset_url)
                "/pkg/bin/portalis" installed)) !! "/pkg/README.md" = None.
Proof.
  assert (Hne : "/pkg/README.md" <> "/pkg/bin/portalis") by discriminate.
  split; [exact Hne|].
  exact (proj1 (download_touches_only_dest linux_x64 5 (Some linux_asset_url)
                  "/pkg/bin/portalis" installed "/pkg/README.md" Hne)).
Defined.

Lemma download_redirect_loop_never_settles_witness :
  https_net (Edge.host "linux" "x64") (Some Edge.looping_url) =
    Responded (Response 302 (Some Edge.looping_url) []) /\
  fst (Install.downloadBinary (Edge.host "linux" "x64") 50 (Some Edge.looping_url)
         "/pkg/bin/portalis" fresh) = Pending.
Proof.
  assert (Hnet : https_net (Edge.host "linux" "x64") (Some Edge.looping_url) =
                 Responded (Response 302 (Some Edge.looping_url) []))
    by reflexivity.
  split; [exact Hnet|].
  refine (proj1 (download_redirect_loop_never_settles (Edge.host "linux" "x64")
                   Edge.looping_url _ "/pkg/bin/portalis" Hnet _ _ 50 fresh)).
  - right; reflexivity.
  - reflexivity.
Defined.



(** A redirect to a relative path, which is no URL. *)
Lemma relative_chain :
  redirect_chain (Edge.host "darwin" "arm64") Edge.relative_url
    [Edge.relative_url; "/objects/a"] (InvalidRequest (Error "Invalid URL")).
Proof.
  eapply chain_hop; [reflexivity | right; reflexivity | reflexivity |].
  apply chain_end; [reflexivity | intros r Hr; discriminate Hr].
Defined.

(** The connection drops on the first request. *)
Lemma dropped_chain :
  redirect_chain (Scenario.host "darwin" "arm64") macos_asset_url
    [macos_asset_url] (TransportError (Error "read ECONNRESET")).
Proof.
  apply chain_end; [reflexivity | intros r Hr; discriminate Hr].
Defined.

Lemma download_refused_target_leaves_file_witness :
  (length [Edge.relative_url; "/objects/a"] <= 2)%nat /\
  requests (snd (Install.downloadBinary (Edge.host "darwin" "arm64") 2
                   (Some Edge.relative_url) "/pkg/bin/portalis" fresh)) =
    [Some Edge.relative_url] /\
  files (snd (Install.downloadBinary (Edge.host "darwin" "arm64") 2
                (Some Edge.relative_url) "/pkg/bin/portalis" fresh))
    !! "/pkg/bin/portalis" = Some (File [] 420).
Proof.
  assert (Hlen : (length [Edge.relative_url; "/objects/a"] <= 2)%nat) by (cbn; lia).
  split; [exact Hlen|].
  exact (proj2 (download_refused_target_leaves_file (Edge.host "darwin" "arm64") _ _ _ 2
                  "/pkg/bin/portalis" fresh relative_chain Hlen)).
Defined.

Lemma getPlatform_accepts_exactly_table_witness :
  In ("darwin", "arm64", "macos-aarch64") platform_table /\
  Install.getPlatform (Scenario.host "darwin" "arm64") fresh =
    (Returned "macos-aarch64", fresh).
Proof.
  assert (Hrow : In ("darwin", "arm64", "macos-aarch64") platform_table)
    by (cbn; tauto).
  split; [exact Hrow|].
  exact (proj2 (getPlatform_accepts_exactly_table (Scenario.host "darwin" "arm64")
                  "macos-aarch64" fresh) Hrow).
Defined.


Lemma install_ensures_bin_dir_witness :
  supported linux_x64 "linux-x86_64" /\
  dirs (snd (Install.main linux_x64 5 fresh)) = {[ "/pkg/bin" ]} ∪ ∅.
Proof.
  split; [reflexivity|].
  exact (install_ensures_bin_dir linux_x64 "linux-x86_64" 5 fresh eq_refl).
Defined.

Lemma install_first_request_witness :
  supported linux_arm64 "linux-aarch64" /\
  exists more,
    requests (snd (Install.main linux_arm64 1 fresh)) =
    Some arm_asset_url :: more.
Proof.
  split; [reflexivity|].
  apply (install_first_request linux_arm64 "linux-aarch64" 0 fresh).
  - reflexivity.
  - intros e He. discriminate He.
Defined.


Lemma install_transport_error_removes_binary_witness :
  supported (Scenario.host "darwin" "arm64") "macos-aarch64" /\
  files installed !! Install.binaryPath (Scenario.host "darwin" "arm64") =
    Some (File asset 493) /\
  fst (Install.main (Scenario.host "darwin" "arm64") 1 installed) = Exited 0 /\
  files (snd (Install.main (Scenario.host "darwin" "arm64") 1 installed))
    !! Install.binaryPath (Scenario.host "darwin" "arm64") = None.
Proof.
  split; [reflexivity|]. split; [vm_compute; reflexivity|].
  destruct (install_transport_error_removes_binary (Scenario.host "darwin" "arm64")
              "macos-aarch64" _ _ 1 installed eq_refl dropped_chain)
    as (Hexit & Hgone & _).
  - cbn; lia.
  - split; [exact Hexit | exact Hgone].
Defined.

Lemma launcher_spawn_error_uncaught_witness :
  files Edge.half_installed !! Launcher.binPath (Edge.host "linux" "arm64") =
    Some (File [] 420) /\
  exit_status (fst (Launcher.main (Edge.host "linux" "arm64")
                      ["node"; "index.js"; "--version"] Edge.half_installed)) = Some 1.
Proof.
  assert (Hf : files Edge.half_installed !! Launcher.binPath (Edge.host "linux" "arm64") =
               Some (File [] 420)) by (vm_compute; reflexivity).
  split; [exact Hf|].
  refine (proj2 (proj2 (launcher_spawn_error_uncaught (Edge.host "linux" "arm64")
                          ["node"; "index.js"; "--version"] Edge.half_installed
                          _ _ Hf _))).
  reflexivity.
Defined.

